(** * IHP layout cells: bondpads and octagonal inductors

    A shallow embedding of [ihp/cells/inductors.py] and
    [ihp/cells/bondpads.py].

    Numbers.  Python floats are modelled as exact rationals ([Q]); Python
    ints as [Z].  Equality of coordinates is [Qeq] where a value has been
    computed, Leibniz equality where two runs build the same term.

    Library calls.  The generators call into [math] and [gdsfactory].  The
    numeric library functions ([math.cos], [math.sin], [math.radians],
    [math.sqrt], [gf.snap.snap_to_grid2x]) are the fields of the class
    [FloatLib]; every statement below holds for any implementation of them.
    The cells returned by [gf.path.extrude], [gf.components.rectangle],
    [gf.c.octagon] and [gf.components.circle] are kept symbolic, as the
    constructor applied to the arguments the generator passes.

    Effects.  A generator creates [c = Component()] and mutates it; this is
    the state of the [Build] monad, which also carries a raised exception
    together with the component as it stood when the exception was raised.
    The [@gf.cell] decorator (naming and caching of the returned cell) and
    the checks the library makes on what it is given are not modelled. *)

From Stdlib Require Import ZArith QArith Qround Qfield Qabs Lia Lqa String.
From stdpp Require Import list strings pretty gmap.

Local Open Scope Z_scope.

(** ** Python numerics *)

(** [round(x)] on a float: nearest integer, ties to the even neighbour. *)
Definition py_round (x : Q) : Z :=
  let f := Qfloor x in
  match Qcompare (x - inject_Z f) (1 # 2) with
  | Lt => f
  | Gt => f + 1
  | Eq => if Z.even f then f else f + 1
  end.

(** [round(v / grid) * grid], the quantisation applied to [space] (and by
    [inductor_min_diameter]). *)
Definition quantize (grid v : Q) : Q :=
  (inject_Z (py_round (v / grid)) * grid)%Q.

(** [round(v / (2 * grid)) * 2 * grid], the quantisation applied to [width]
    and [diameter].  The product associates to the left: the int [round(..)
    * 2] is formed first. *)
Definition quantize2x (grid v : Q) : Q :=
  (inject_Z (py_round (v / (2 * grid)) * 2) * grid)%Q.

(** Library functions on floats that the generators call. *)
Class FloatLib := {
  cos : Q → Q;
  sin : Q → Q;
  radians : Q → Q;
  sqrt : Q → Q;
  snap_to_grid2x : Q → Q
}.

(** ** Data model *)

Definition point : Type := Q * Q.

(** A layer is named in a layer table or given as a (layer, datatype) pair. *)
Inductive LayerSpec :=
| LayerName (name : string)
| LayerPair (layer datatype : Z).

Inductive InfoVal :=
| InfoFloat (q : Q)
| InfoInt (z : Z)
| InfoStr (s : string)
| InfoLayer (l : LayerSpec).

(** [port_type] is [None] where the generator does not pass it. *)
Record Port := mkPort {
  port_name : string;
  port_center : point;
  port_width : Q;
  port_orientation : Z;
  port_layer : LayerSpec;
  port_type : option string
}.

Record Polygon := mkPolygon {
  poly_points : list point;
  poly_layer : LayerSpec
}.

(** A cell is one of the library's parametric cells, kept as its call, or a
    component assembled by a generator of this repository.  A component
    holds references to cells, each with its translation, the polygons
    drawn directly into it, its ports in insertion order and its [info]. *)
Inductive Cell :=
| Extrude (path : list point) (layer : LayerSpec) (width : Q)
| Rectangle (size : point) (layer : LayerSpec) (centered : option bool)
| Octagon (side_length : Q) (layer : LayerSpec)
| Circle (radius : Q) (layer : LayerSpec)
| Built (c : Component)
with Component :=
| mkComponent (insts : list (Cell * point)) (polygons : list Polygon)
    (ports : list Port) (info : gmap string InfoVal).

Definition insts (c : Component) : list (Cell * point) :=
  match c with mkComponent i _ _ _ => i end.
Definition polygons (c : Component) : list Polygon :=
  match c with mkComponent _ p _ _ => p end.
Definition ports (c : Component) : list Port :=
  match c with mkComponent _ _ p _ => p end.
Definition info (c : Component) : gmap string InfoVal :=
  match c with mkComponent _ _ _ i => i end.

Definition empty_component : Component :=
  mkComponent [] [] [] ∅.

Inductive exn :=
| ValueError (msg : string)
| TypeError (msg : string)
| KeyError (key : string).

(** ** The construction monad *)

Definition Build (A : Type) : Type := Component → Component * (exn + A).

Definition ret {A} (a : A) : Build A := λ c, (c, inr a).

Definition bind {A B} (m : Build A) (k : A → Build B) : Build B :=
  λ c, match m c with
       | (c', inr a) => k a c'
       | (c', inl e) => (c', inl e)
       end.

Definition raise {A} (e : exn) : Build A := λ c, (c, inl e).

Definition get_component : Build Component := λ c, (c, inr c).

(** [Build] with stdpp's monad notation: [x ← m; k] and [m;; k]. *)
#[global] Instance build_ret : MRet Build := @ret.
#[global] Instance build_bind : MBind Build := λ A B k m, bind m k.

(** [for x in l: body(x)] *)
Fixpoint for_each {A} (l : list A) (body : A → Build unit) : Build unit :=
  match l with
  | [] => ret tt
  | x :: l' => body x;; for_each l' body
  end.

(** [c.add_ref(cell)], also written [c << cell]: the new reference sits at
    the origin; the handle returned is its index in [insts]. *)
Definition add_ref (x : Cell) : Build nat :=
  λ c, (mkComponent (insts c ++ [(x, (0, 0)%Q)]) (polygons c) (ports c) (info c),
        inr (length (insts c))).

(** [ref.move((dx, dy))] translates the reference behind the handle. *)
Definition move (ref : nat) (v : point) : Build unit :=
  λ c, (mkComponent
          (alter (λ i, (i.1, (i.2.1 + v.1, i.2.2 + v.2)%Q)) ref (insts c))
          (polygons c) (ports c) (info c),
        inr tt).

(** [ref.movex(dx)] *)
Definition movex (ref : nat) (dx : Q) : Build unit := move ref (dx, 0%Q).

Definition add_polygon (points : list point) (layer : LayerSpec) : Build unit :=
  λ c, (mkComponent (insts c) (polygons c ++ [mkPolygon points layer]) (ports c) (info c),
        inr tt).

Definition add_port (p : Port) : Build unit :=
  λ c, (mkComponent (insts c) (polygons c) (ports c ++ [p]) (info c), inr tt).

(** [c.info[key] = v] *)
Definition set_info (key : string) (v : InfoVal) : Build unit :=
  λ c, (mkComponent (insts c) (polygons c) (ports c) (<[key := v]> (info c)), inr tt).

(** A generator: [c = Component()], the body, [return c]. *)
Definition cell (body : Build Component) : exn + Component :=
  (body empty_component).2.

(** Calling a generator from within another: its exception propagates, the
    caller's component is untouched by the call itself. *)
Definition call {A} (r : exn + A) : Build A :=
  match r with
  | inl e => raise e
  | inr a => ret a
  end.

(** [comp.ports[name]] *)
Definition port_lookup (comp : Component) (name : string) : Build Port :=
  match list_find (λ p, port_name p = name) (ports comp) with
  | Some (_, p) => ret p
  | None => raise (KeyError name)
  end.

(** A call that passes keyword arguments [passed] to a function whose
    parameters are [params] (and which takes no [**kwargs]): a keyword that
    names no parameter raises [TypeError] before the body runs. *)
Definition call_kw {A} (fname : string) (params passed : list string)
    (body : exn + A) : exn + A :=
  match filter (λ k, k ∉ params) passed with
  | k :: _ =>
      inl (TypeError (fname ++ "() got an unexpected keyword argument '" ++ k ++ "'"))
  | [] => body
  end.

(** [range(lo, hi)] *)
Definition py_range (lo hi : Z) : list Z := seqZ lo (hi - lo).

(** [str(n)] for an int. *)
Definition py_str (n : Z) : string := pretty n.

(** ** ihp/cells/inductors.py *)

Module Inductors.
Section Inductors.
Context `{FloatLib}.
Local Open Scope Q_scope.


Definition TM2 : LayerSpec := LayerPair 134 0.
Definition IND : LayerSpec := LayerPair 27 0.
Definition NoRCX : LayerSpec := LayerPair 148 0.
Definition PWellBlock : LayerSpec := LayerPair 46 21.
Definition TopMetal2Pin : LayerSpec := LayerPair 134 2.

Definition NoFill_layers : list LayerSpec :=
  [ LayerPair 1 23; LayerPair 5 23; LayerPair 8 23; LayerPair 10 23;
    LayerPair 30 23; LayerPair 50 23; LayerPair 67 23; LayerPair 126 23;
    LayerPair 134 23 ].

Definition grid : Q := 0.01.

(** The centre line of the coil: the point appended before the loop, the
    eight points of the loop over [range(-2, 6)] (both branches of its [if]
    append the same point), the point appended after it. *)
Definition path_points (space s d : Q) : list point :=
  let r := d / 2 + s in
  let octagon_center_y := 3 * r in
  let pi_over_4 := radians 45 in
  [ (space / 2, octagon_center_y - r * cos (pi_over_4 / 2)) ]
  ++ map (λ i : Z,
       let angle := inject_Z i * pi_over_4 + pi_over_4 / 2 in
       let r := d / 2 + s in
       let x := r * cos angle in
       let y := r * sin angle + octagon_center_y in
       if ((-2 <=? i) && (i <? 2))%Z then (x, y) else (x, y))
     (py_range (-2) 6)
  ++ [ (- space / 2, octagon_center_y - r * cos (pi_over_4 / 2)) ].

(** The boundary drawn on the marker layers, from the loop over [range(8)]. *)
Definition outer_polygon_pts (s d : Q) : list point :=
  let r := d / 2 + s in
  let octagon_center_y := 3 * r in
  let pi_over_4 := radians 45 in
  let length := 2 * r + s in
  map (λ i : Z,
    let r_outer := (d / 2 + length) / cos (pi_over_4 / 2) in
    let angle := inject_Z i * pi_over_4 + pi_over_4 / 2 in
    let x := r_outer * cos angle in
    let y := r_outer * sin angle + octagon_center_y in
    (x, y))
  (py_range 0 8).

(** The body of [inductor2].  The loop over [range(-2, 6)] rebinds [r] to
    the expression it already holds, so [length] reads the same [r]. *)
Definition inductor2_body (width space diameter resistance inductance : Q)
    (turns : Z) (block_qrc : bool) : Build Component :=
  let w := quantize2x grid width in
  let s := quantize grid space in
  let d := quantize2x grid diameter in
  let r := d / 2 + s in
  _ ← add_ref (Extrude (path_points space s d) TM2 w);
  let length := 2 * r + s in
  port1_trace ← add_ref (Rectangle (s, length) TM2 None);
  move port1_trace (- s - s / 2, 0);;
  add_port (mkPort "P1" (- s, s) s 270 TM2 None);;
  port2_trace ← add_ref (Rectangle (s, length) TM2 None);
  move port2_trace (s - s / 2, 0);;
  add_port (mkPort "P2" (s, s) s 270 TM2 None);;
  add_polygon (outer_polygon_pts s d) IND;;
  for_each NoFill_layers (λ layer, add_polygon (outer_polygon_pts s d) layer);;
  (if block_qrc then add_polygon (outer_polygon_pts s d) NoRCX else mret tt);;
  add_polygon (outer_polygon_pts s d) PWellBlock;;
  pin_1_trace ← add_ref (Rectangle (s, s) TopMetal2Pin None);
  move pin_1_trace (s / 2, 0);;
  pin_2_trace ← add_ref (Rectangle (s, s) TopMetal2Pin None);
  move pin_2_trace (- s - s / 2, 0);;
  set_info "resistance" (InfoFloat resistance);;
  set_info "inductance" (InfoFloat inductance);;
  set_info "model" (InfoStr "inductor2");;
  set_info "turns" (InfoInt turns);;
  set_info "width" (InfoFloat width);;
  set_info "space" (InfoFloat space);;
  set_info "diameter" (InfoFloat diameter);;
  get_component.

Definition inductor2 (width space diameter resistance inductance : Q)
    (turns : Z) (block_qrc : bool) : exn + Component :=
  cell (inductor2_body width space diameter resistance inductance turns block_qrc).

(** The parameters in the signature of [inductor2]. *)
Definition inductor2_params : list string :=
  [ "width"; "space"; "diameter"; "resistance"; "inductance"; "turns"; "block_qrc" ].

(** [inductor3] is one call: [inductor2(width=width, ..., block_qrc=block_qrc,
    substrate_etch=substrate_etch)]. *)
Definition inductor3 (width space diameter resistance inductance : Q)
    (turns : Z) (block_qrc substrate_etch : bool) : exn + Component :=
  call_kw "inductor2" inductor2_params
    [ "width"; "space"; "diameter"; "resistance"; "inductance"; "turns";
      "block_qrc"; "substrate_etch" ]
    (inductor2 width space diameter resistance inductance turns block_qrc).

End Inductors.

(** The defaults of the two signatures. *)
Definition inductor2_default `{FloatLib} : exn + Component :=
  inductor2 2.0 2.1 25.35 0.5777 33.303e-12 1 true.

Definition inductor3_default `{FloatLib} : exn + Component :=
  inductor3 2.0 2.1 24.68 1.386 221.5e-12 2 true false.

End Inductors.

(** ** ihp/cells/bondpads.py *)

Module Bondpads.
Section Bondpads.
Context `{FloatLib}.
Local Open Scope Q_scope.

(** [bbox_offsets or []] *)
Definition offsets_or_empty (bbox_offsets : option (list Q)) : list Q :=
  match bbox_offsets with
  | None | Some [] => []
  | Some l => l
  end.

(** The first [if]/[elif] chain: the pad itself, or [ValueError]. *)
Definition main_pad (shape : string) (d : Q) (layer_top_metal : LayerSpec) : Build unit :=
  if String.eqb shape "square" then
    let pad := Rectangle (d, d) layer_top_metal (Some true) in
    _ ← add_ref pad; mret tt
  else if String.eqb shape "octagon" then
    let side_length := snap_to_grid2x (d / (1 + sqrt 2)) in
    let pad := Octagon side_length layer_top_metal in
    _ ← add_ref pad; mret tt
  else if String.eqb shape "circle" then
    let pad := Circle (d / 2) layer_top_metal in
    _ ← add_ref pad; mret tt
  else
    raise (ValueError ("Unknown shape: " ++ shape)).

(** The body of the loop over [zip(bbox_layers, bbox_offsets or [])]: an
    [if]/[elif] chain with no [else]. *)
Definition opening (shape : string) (d : Q) (layer : LayerSpec) (offset : Q) : Build unit :=
  if String.eqb shape "square" then
    _ ← add_ref (Rectangle (d + offset, d + offset) layer (Some true)); mret tt
  else if String.eqb shape "octagon" then
    let side_length := snap_to_grid2x (offset + d / (1 + sqrt 2)) in
    _ ← add_ref (Octagon side_length layer); mret tt
  else if String.eqb shape "circle" then
    _ ← add_ref (Circle (d / 2 + offset / 2) layer); mret tt
  else
    mret tt.

Definition bondpad_body (shape : string) (diameter : Q)
    (layer_top_metal layer_passiv layer_dfpad : LayerSpec)
    (bbox_offsets : option (list Q)) : Build Component :=
  let d := diameter in
  main_pad shape d layer_top_metal;;
  let bbox_layers := [layer_passiv; layer_dfpad] in
  for_each (zip bbox_layers (offsets_or_empty bbox_offsets))
    (λ lo, opening shape d lo.1 lo.2);;
  add_port (mkPort "pad" (0, 0) d 0 layer_top_metal (Some "electrical"));;
  set_info "shape" (InfoStr shape);;
  set_info "diameter" (InfoFloat diameter);;
  set_info "top_metal" (InfoLayer layer_top_metal);;
  get_component.

Definition bondpad (shape : string) (diameter : Q)
    (layer_top_metal layer_passiv layer_dfpad : LayerSpec)
    (bbox_offsets : option (list Q)) : exn + Component :=
  cell (bondpad_body shape diameter layer_top_metal layer_passiv layer_dfpad bbox_offsets).

(** One iteration of the loop of [bondpad_array]. *)
Definition array_step (pad_pitch pad_diameter : Q) (shape : string)
    (layer_top_metal layer_passiv layer_dfpad : LayerSpec)
    (bbox_offsets : option (list Q)) (i : Z) : Build unit :=
  pad ← call (bondpad shape pad_diameter layer_top_metal layer_passiv layer_dfpad
                bbox_offsets);
  pad_ref ← add_ref (Built pad);
  movex pad_ref (inject_Z i * pad_pitch);;
  pad_port ← port_lookup pad "pad";
  add_port (mkPort ("pad_" ++ py_str (i + 1)) (inject_Z i * pad_pitch, 0) pad_diameter 0
              (port_layer pad_port) (Some "electrical")).

Definition bondpad_array_body (n_pads : Z) (pad_pitch pad_diameter : Q) (shape : string)
    (layer_top_metal layer_passiv layer_dfpad : LayerSpec)
    (bbox_offsets : option (list Q)) : Build Component :=
  for_each (py_range 0 n_pads)
    (array_step pad_pitch pad_diameter shape layer_top_metal layer_passiv layer_dfpad
       bbox_offsets);;
  set_info "n_pads" (InfoInt n_pads);;
  set_info "pad_pitch" (InfoFloat pad_pitch);;
  set_info "pad_diameter" (InfoFloat pad_diameter);;
  get_component.

Definition bondpad_array (n_pads : Z) (pad_pitch pad_diameter : Q) (shape : string)
    (layer_top_metal layer_passiv layer_dfpad : LayerSpec)
    (bbox_offsets : option (list Q)) : exn + Component :=
  cell (bondpad_array_body n_pads pad_pitch pad_diameter shape layer_top_metal
          layer_passiv layer_dfpad bbox_offsets).

End Bondpads.

(** The recognised shapes. *)
Definition known_shape (shape : string) : Prop :=
  shape = "octagon" ∨ shape = "square" ∨ shape = "circle".

(** Defaults of the signatures. *)
Definition default_top_metal : LayerSpec := LayerName "TopMetal2drawing".
Definition default_passiv : LayerSpec := LayerName "Passivpillar".
Definition default_dfpad : LayerSpec := LayerName "dfpaddrawing".
Definition default_bbox_offsets : option (list Q) := Some [-2.1; 0]%Q.

End Bondpads.

(** ** Definitions used to state the results *)

(** A rational implementation of the float library, on which the generators
    can be run: truncated series for [cos] and [sin], 355/113 for pi, four
    Newton steps for [sqrt], and a 1 nm grid for [snap_to_grid2x]. *)
Definition rational_lib : FloatLib := {|
  cos := λ x, (1 - x * x / 2 + x * x * x * x / 24)%Q;
  sin := λ x, (x - x * x * x / 6 + x * x * x * x * x / 120)%Q;
  radians := λ x, (x * (355 # 113) / 180)%Q;
  sqrt := λ x, Qred (Nat.iter 4 (λ y, Qred ((y + x / y) / 2)) 1)%Q;
  snap_to_grid2x := quantize2x 0.001
|}.

(** The layers [Inductors.inductor2_body] draws the outer boundary on, in
    the order of its [add_polygon] calls. *)
Definition marker_layers (block_qrc : bool) : list LayerSpec :=
  [Inductors.IND] ++ Inductors.NoFill_layers
  ++ (if block_qrc then [Inductors.NoRCX] else []) ++ [Inductors.PWellBlock].

(** The layer a library cell is drawn on. *)
Definition cell_layer (x : Cell) : option LayerSpec :=
  match x with
  | Extrude _ l _ | Rectangle _ l _ | Octagon _ l | Circle _ l => Some l
  | Built _ => None
  end.

(** The cell referenced by [Bondpads.main_pad] for each recognised shape, and
    the one referenced by [Bondpads.opening]. *)
Definition pad_cell `{FloatLib} (shape : string) (d : Q) (layer : LayerSpec) : Cell :=
  if String.eqb shape "square" then Rectangle (d, d) layer (Some true)
  else if String.eqb shape "octagon" then Octagon (snap_to_grid2x (d / (1 + sqrt 2))) layer
  else Circle (d / 2) layer.

Definition opening_cell `{FloatLib} (shape : string) (d : Q) (layer : LayerSpec)
    (offset : Q) : Cell :=
  if String.eqb shape "square" then Rectangle (d + offset, d + offset)%Q layer (Some true)
  else if String.eqb shape "octagon" then
    Octagon (snap_to_grid2x (offset + d / (1 + sqrt 2))) layer
  else Circle (d / 2 + offset / 2) layer.

(** The port [Bondpads.bondpad] adds. *)
Definition pad_port (d : Q) (layer_top_metal : LayerSpec) : Port :=
  mkPort "pad" (0, 0)%Q d 0 layer_top_metal (Some "electrical").

(** [q] is an integer multiple of the inductors' grid. *)
Definition on_grid (q : Q) : Prop := ∃ k : Z, (q == inject_Z k * Inductors.grid)%Q.

(** Both sides of a rectangle cell are on the grid. *)
Definition cell_on_grid (x : Cell) : Prop :=
  match x with
  | Rectangle size _ _ => on_grid size.1 ∧ on_grid size.2
  | _ => True
  end.

(** * Results *)

(** ** Quantisation *)

Example py_round_ties :
  map py_round [0.5; 1.5; 2.5; -0.5; 210.4; 210.6]%Q = [0; 2; 2; 0; 210; 211].
Proof. reflexivity. Qed.

#[global] Instance py_round_proper : Proper (Qeq ==> eq) py_round.
Proof.
  intros x y Hxy. unfold py_round.
  rewrite (Qfloor_comp _ _ Hxy).
  assert (Hc : (x - inject_Z (Qfloor y) ?= 1 # 2)%Q = (y - inject_Z (Qfloor y) ?= 1 # 2)%Q).
  { apply Qcompare_comp; [ rewrite Hxy | ]; reflexivity. }
  rewrite Hc. reflexivity.
Qed.

Lemma py_round_inject_Z (n : Z) : py_round (inject_Z n) = n.
Proof.
  unfold py_round. rewrite Qfloor_Z.
  assert (Hc : (inject_Z n - inject_Z n ?= 1 # 2)%Q = Lt).
  { rewrite <- Qlt_alt.
    assert (Hz : (inject_Z n - inject_Z n == 0)%Q) by ring.
    rewrite Hz. reflexivity. }
  rewrite Hc. reflexivity.
Qed.

Lemma quantize_fixed (g : Q) (n : Z) (v : Q) :
  ¬ (g == 0)%Q → (v == inject_Z n * g)%Q → quantize g v = (inject_Z n * g)%Q.
Proof.
  intros Hg Hv. unfold quantize.
  assert (Hn : (v / g == inject_Z n)%Q) by (rewrite Hv; field; exact Hg).
  rewrite Hn, py_round_inject_Z. reflexivity.
Qed.

Lemma quantize2x_fixed (g : Q) (n : Z) (v : Q) :
  ¬ (g == 0)%Q → (v == inject_Z (n * 2) * g)%Q →
  quantize2x g v = (inject_Z (n * 2) * g)%Q.
Proof.
  intros Hg Hv. unfold quantize2x.
  assert (Hn : (v / (2 * g) == inject_Z n)%Q).
  { rewrite Hv, inject_Z_mult. field. exact Hg. }
  rewrite Hn, py_round_inject_Z. reflexivity.
Qed.

(** C7.  For every value [v] and grid resolution [g > 0], half of the
    even-multiple quantisation [round(v / (2g)) * 2 * g] is an integer
    multiple of [g], namely [round(v / (2g)) * g]: the radius [d / 2] taken
    from a quantised diameter is on the grid. *)
Theorem quantize2x_half_on_grid (v g : Q) :
  (0 < g)%Q →
  (quantize2x g v / 2 == inject_Z (py_round (v / (2 * g))) * g)%Q
  ∧ ∃ k : Z, (quantize2x g v / 2 == inject_Z k * g)%Q.
Proof.
  intros _.
  assert (Hhalf : (quantize2x g v / 2 == inject_Z (py_round (v / (2 * g))) * g)%Q).
  { unfold quantize2x. rewrite inject_Z_mult. field. }
  split; [ exact Hhalf | ].
  exists (py_round (v / (2 * g))). exact Hhalf.
Qed.

Lemma quantize2x_half_on_grid_witness :
  (0 < 0.01)%Q
  ∧ (quantize2x 0.01 25.35 / 2 == inject_Z (py_round (25.35 / (2 * 0.01))) * 0.01)%Q
  ∧ ∃ k : Z, (quantize2x 0.01 25.35 / 2 == inject_Z k * 0.01)%Q.
Proof.
  split; [ reflexivity | ].
  apply (quantize2x_half_on_grid 25.35 0.01). reflexivity.
Defined.

(** C8.  Quantising a value that is already quantised returns it, under
    both policies: if [v] is [round(u / g) * g] for some [u] then
    [round(v / g) * g] is [v], and if [v] is [round(u / (2g)) * 2 * g] for
    some [u] then [round(v / (2g)) * 2 * g] is [v].  The grid [g] is not
    zero (the division raises otherwise). *)
Theorem quantize_idempotent (g v : Q) :
  ¬ (g == 0)%Q →
  (∀ u : Q, (v == quantize g u)%Q → (quantize g v == v)%Q)
  ∧ (∀ u : Q, (v == quantize2x g u)%Q → (quantize2x g v == v)%Q).
Proof.
  intros Hg. split; intros u Hv.
  - rewrite (quantize_fixed g (py_round (u / g)) v Hg Hv).
    symmetry. exact Hv.
  - rewrite (quantize2x_fixed g (py_round (u / (2 * g))) v Hg Hv).
    symmetry. exact Hv.
Qed.

Lemma quantize_idempotent_witness :
  ¬ (0.01 == 0)%Q
  ∧ (2.1 == quantize 0.01 2.104)%Q ∧ (quantize 0.01 2.1 == 2.1)%Q
  ∧ (25.36 == quantize2x 0.01 25.35)%Q ∧ (quantize2x 0.01 25.36 == 25.36)%Q.
Proof.
  assert (Hg : ¬ (0.01 == 0)%Q) by discriminate.
  split; [ exact Hg | ].
  split; [ reflexivity | ].
  split; [ apply (proj1 (quantize_idempotent 0.01 2.1 Hg) 2.104%Q); reflexivity | ].
  split; [ reflexivity | ].
  apply (proj2 (quantize_idempotent 0.01 25.36 Hg) 25.35%Q); reflexivity.
Defined.

(** ** Inductors *)

Section InductorFacts.
Import Inductors.
Context `{FloatLib}.
Local Open Scope Q_scope.

(** The component [inductor2] returns, in closed form. *)
Lemma inductor2_body_run width space diameter resistance inductance turns block_qrc :
  let w := quantize2x grid width in
  let s := quantize grid space in
  let d := quantize2x grid diameter in
  let length := 2 * (d / 2 + s) + s in
  let c := mkComponent
    [ (Extrude (path_points space s d) TM2 w, (0, 0));
      (Rectangle (s, length) TM2 None, (0 + (- s - s / 2), 0 + 0));
      (Rectangle (s, length) TM2 None, (0 + (s - s / 2), 0 + 0));
      (Rectangle (s, s) TopMetal2Pin None, (0 + s / 2, 0 + 0));
      (Rectangle (s, s) TopMetal2Pin None, (0 + (- s - s / 2), 0 + 0)) ]
    (map (mkPolygon (outer_polygon_pts s d)) (marker_layers block_qrc))
    [ mkPort "P1" (- s, s) s 270 TM2 None; mkPort "P2" (s, s) s 270 TM2 None ]
    (<["diameter" := InfoFloat diameter]>
      (<["space" := InfoFloat space]>
        (<["width" := InfoFloat width]>
          (<["turns" := InfoInt turns]>
            (<["model" := InfoStr "inductor2"]>
              (<["inductance" := InfoFloat inductance]>
                (<["resistance" := InfoFloat resistance]> ∅))))))) in
  inductor2_body width space diameter resistance inductance turns block_qrc
    empty_component = (c, inr c).
Proof.
  destruct block_qrc; reflexivity.
Qed.

Lemma path_points_length space s d : length (path_points space s d) = 10%nat.
Proof. reflexivity. Qed.

Lemma outer_polygon_pts_length s d : length (outer_polygon_pts s d) = 8%nat.
Proof. reflexivity. Qed.

(** The two gap points, as the code computes them: the abscissa is half of
    the raw [space] argument. *)
Lemma path_points_ends space s d :
  let r := d / 2 + s in
  let y := 3 * r - r * cos (radians 45 / 2) in
  head (path_points space s d) = Some (space / 2, y)
  ∧ last (path_points space s d) = Some (- space / 2, y).
Proof. split; reflexivity. Qed.

(** C1.  [inductor3] passes the keyword [substrate_etch] to [inductor2],
    whose signature has no such parameter: for every argument tuple the call
    raises [TypeError], where [inductor2] on the same arguments returns a
    component. *)
Theorem inductor3_raises_type_error width space diameter resistance inductance
    turns block_qrc substrate_etch :
  inductor3 width space diameter resistance inductance turns block_qrc substrate_etch
  = inl (TypeError "inductor2() got an unexpected keyword argument 'substrate_etch'")
  ∧ ∃ c, inductor2 width space diameter resistance inductance turns block_qrc = inr c.
Proof.
  split; [ reflexivity | ].
  unfold inductor2, cell.
  pose proof (inductor2_body_run width space diameter resistance inductance turns
                block_qrc) as Hrun.
  cbv zeta in Hrun. rewrite Hrun. eexists. reflexivity.
Qed.

(** C2.  [inductor2(width=2.0, space=2.1, diameter=25.35)], with
    [block_qrc] true and whatever the metadata arguments: the first
    reference is the extruded coil path, of exactly 10 points; the ports are
    exactly ["P1"] centred at (-2.1, 2.1) and ["P2"] centred at (2.1, 2.1),
    both of orientation 270; there are exactly 12 polygons, on the coil
    identification layer, the 9 anti-fill layers, the RC-blocking layer and
    the well-block layer, and all 12 have the same list of 8 vertices. *)
Theorem inductor2_default_scenario (resistance inductance : Q) (turns : Z) :
  ∃ c pts w p1 p2 outer,
    inductor2 2.0 2.1 25.35 resistance inductance turns true = inr c
    ∧ insts c !! 0%nat = Some (Extrude pts TM2 w, (0, 0))
    ∧ length pts = 10%nat
    ∧ ports c = [p1; p2]
    ∧ port_name p1 = "P1"
    ∧ (port_center p1).1 == -2.1 ∧ (port_center p1).2 == 2.1
    ∧ port_orientation p1 = 270%Z
    ∧ port_name p2 = "P2"
    ∧ (port_center p2).1 == 2.1 ∧ (port_center p2).2 == 2.1
    ∧ port_orientation p2 = 270%Z
    ∧ length (polygons c) = 12%nat
    ∧ map poly_layer (polygons c)
      = [IND] ++ NoFill_layers ++ [NoRCX] ++ [PWellBlock]
    ∧ length NoFill_layers = 9%nat
    ∧ length outer = 8%nat
    ∧ Forall (λ p, poly_points p = outer) (polygons c).
Proof.
  pose proof (inductor2_body_run 2.0 2.1 25.35 resistance inductance turns true) as Hrun.
  cbv zeta in Hrun.
  eexists _, _, _, _, _, _.
  split; [ unfold inductor2, cell; rewrite Hrun; reflexivity | ].
  cbn [insts ports polygons port_name port_center port_orientation fst snd].
  split; [ reflexivity | ].
  split; [ apply path_points_length | ].
  split; [ reflexivity | ].
  repeat (split; [ reflexivity | ]).
  split; [ apply outer_polygon_pts_length | ].
  cbn [marker_layers map app NoFill_layers].
  repeat constructor.
Qed.

(** C3.  [inductor2(space=2.104)], other arguments at their defaults: the
    quantised spacing [s] is 2.1, yet the first and last points of the coil
    path lie at x = 1.052 and x = -1.052, half of the raw [space], and not
    at [s / 2] = 1.05 and [- s / 2]. *)
Theorem inductor2_gap_points_off_grid :
  ∃ c pts w p q,
    inductor2 2.0 2.104 25.35 0.5777 33.303e-12 1 true = inr c
    ∧ insts c !! 0%nat = Some (Extrude pts TM2 w, (0, 0))
    ∧ head pts = Some p ∧ last pts = Some q
    ∧ p.1 == 1.052 ∧ q.1 == -1.052
    ∧ quantize grid 2.104 == 2.1
    ∧ ¬ p.1 == quantize grid 2.104 / 2
    ∧ ¬ q.1 == - (quantize grid 2.104 / 2).
Proof.
  pose proof (inductor2_body_run 2.0 2.104 25.35 0.5777 33.303e-12 1 true) as Hrun.
  cbv zeta in Hrun.
  eexists _, _, _, _, _.
  split; [ unfold inductor2, cell; rewrite Hrun; reflexivity | ].
  cbn [insts].
  split; [ reflexivity | ].
  split; [ apply path_points_ends | ].
  split; [ apply path_points_ends | ].
  cbn [fst].
  repeat split; try reflexivity; discriminate.
Qed.

(** C4.  Two calls of [inductor2] that differ in [turns] only return
    components with the same references (coil path, stubs, pins), the same
    polygons and the same ports; the [info] of the second is that of the
    first with ["turns"] overwritten, and each records its own [turns]. *)
Theorem inductor2_turns_metadata_only width space diameter resistance inductance
    (turns1 turns2 : Z) block_qrc :
  ∃ c1 c2,
    inductor2 width space diameter resistance inductance turns1 block_qrc = inr c1
    ∧ inductor2 width space diameter resistance inductance turns2 block_qrc = inr c2
    ∧ insts c1 = insts c2
    ∧ polygons c1 = polygons c2
    ∧ ports c1 = ports c2
    ∧ info c2 = <["turns" := InfoInt turns2]> (info c1)
    ∧ info c1 !! "turns" = Some (InfoInt turns1)
    ∧ info c2 !! "turns" = Some (InfoInt turns2).
Proof.
  pose proof (inductor2_body_run width space diameter resistance inductance turns1
                block_qrc) as Hrun1.
  pose proof (inductor2_body_run width space diameter resistance inductance turns2
                block_qrc) as Hrun2.
  cbv zeta in Hrun1, Hrun2.
  eexists _, _.
  split; [ unfold inductor2, cell; rewrite Hrun1; reflexivity | ].
  split; [ unfold inductor2, cell; rewrite Hrun2; reflexivity | ].
  cbn [insts polygons ports info].
  do 3 (split; [ reflexivity | ]).
  split.
  - rewrite (insert_insert_ne _ "turns" "diameter") by done.
    rewrite (insert_insert_ne _ "turns" "space") by done.
    rewrite (insert_insert_ne _ "turns" "width") by done.
    rewrite insert_insert_eq. reflexivity.
  - split.
    + rewrite (lookup_insert_ne _ "diameter" "turns") by done.
      rewrite (lookup_insert_ne _ "space" "turns") by done.
      rewrite (lookup_insert_ne _ "width" "turns") by done.
      apply lookup_insert_eq.
    + rewrite (lookup_insert_ne _ "diameter" "turns") by done.
      rewrite (lookup_insert_ne _ "space" "turns") by done.
      rewrite (lookup_insert_ne _ "width" "turns") by done.
      apply lookup_insert_eq.
Qed.

End InductorFacts.

(** ** Bondpads *)

Section BondpadFacts.
Import Bondpads.
Context `{FloatLib}.
Local Open Scope Q_scope.

Lemma main_pad_known shape d layer c :
  known_shape shape →
  main_pad shape d layer c
  = (mkComponent (insts c ++ [(pad_cell shape d layer, (0, 0))]) (polygons c) (ports c)
       (info c), inr tt).
Proof.
  intros [-> | [-> | ->]]; reflexivity.
Qed.

Lemma main_pad_unknown shape d layer c :
  ¬ known_shape shape →
  main_pad shape d layer c = (c, inl (ValueError ("Unknown shape: " ++ shape))).
Proof.
  intros Hshape. unfold main_pad, known_shape in *.
  destruct (String.eqb_spec shape "square") as [-> | _]; [ tauto | ].
  destruct (String.eqb_spec shape "octagon") as [-> | _]; [ tauto | ].
  destruct (String.eqb_spec shape "circle") as [-> | _]; [ tauto | ].
  reflexivity.
Qed.

Lemma opening_known shape d layer offset c :
  known_shape shape →
  opening shape d layer offset c
  = (mkComponent (insts c ++ [(opening_cell shape d layer offset, (0, 0))]) (polygons c)
       (ports c) (info c), inr tt).
Proof.
  intros [-> | [-> | ->]]; reflexivity.
Qed.

Lemma for_each_opening shape d (los : list (LayerSpec * Q)) c :
  known_shape shape →
  for_each los (λ lo, opening shape d lo.1 lo.2) c
  = (mkComponent (insts c ++ map (λ lo, (opening_cell shape d lo.1 lo.2, (0, 0))) los)
       (polygons c) (ports c) (info c), inr tt).
Proof.
  intros Hshape. revert c.
  induction los as [ | lo los IH ]; intros c.
  - cbn [for_each map]. rewrite app_nil_r. destruct c; reflexivity.
  - cbn [for_each map]. unfold mbind, build_bind, bind.
    rewrite (opening_known _ _ _ _ _ Hshape), IH.
    cbn [insts polygons ports info]. rewrite <- app_assoc. reflexivity.
Qed.

(** The component [bondpad] returns for a recognised shape. *)
Lemma bondpad_body_run shape d ltm lp ld offs :
  known_shape shape →
  let c := mkComponent
    ((pad_cell shape d ltm, (0, 0))
       :: map (λ lo, (opening_cell shape d lo.1 lo.2, (0, 0)))
            (zip [lp; ld] (offsets_or_empty offs)))
    [] [pad_port d ltm]
    (<["top_metal" := InfoLayer ltm]>
       (<["diameter" := InfoFloat d]> (<["shape" := InfoStr shape]> ∅))) in
  bondpad_body shape d ltm lp ld offs empty_component = (c, inr c).
Proof.
  intros Hshape. unfold bondpad_body, mbind, build_bind, bind.
  rewrite (main_pad_known _ _ _ _ Hshape), (for_each_opening _ _ _ _ Hshape).
  reflexivity.
Qed.

Lemma bondpad_body_raises shape d ltm lp ld offs :
  ¬ known_shape shape →
  bondpad_body shape d ltm lp ld offs empty_component
  = (empty_component, inl (ValueError ("Unknown shape: " ++ shape))).
Proof.
  intros Hshape. unfold bondpad_body, mbind, build_bind, bind.
  rewrite (main_pad_unknown _ _ _ _ Hshape). reflexivity.
Qed.


Lemma bondpad_known shape d ltm lp ld offs :
  known_shape shape →
  bondpad shape d ltm lp ld offs
  = inr (mkComponent
      ((pad_cell shape d ltm, (0, 0))
         :: map (λ lo, (opening_cell shape d lo.1 lo.2, (0, 0)))
              (zip [lp; ld] (offsets_or_empty offs)))
      [] [pad_port d ltm]
      (<["top_metal" := InfoLayer ltm]>
         (<["diameter" := InfoFloat d]> (<["shape" := InfoStr shape]> ∅)))).
Proof.
  intros Hshape. unfold bondpad, cell.
  pose proof (bondpad_body_run shape d ltm lp ld offs Hshape) as Hrun.
  cbv zeta in Hrun. rewrite Hrun. reflexivity.
Qed.

Lemma bondpad_unknown shape d ltm lp ld offs :
  ¬ known_shape shape →
  bondpad shape d ltm lp ld offs = inl (ValueError ("Unknown shape: " ++ shape)).
Proof.
  intros Hshape. unfold bondpad, cell.
  rewrite (bondpad_body_raises _ _ _ _ _ _ Hshape). reflexivity.
Qed.

Lemma cell_layer_pad_cell shape d layer : cell_layer (pad_cell shape d layer) = Some layer.
Proof.
  unfold pad_cell.
  destruct (String.eqb shape "square"); [ reflexivity | ].
  destruct (String.eqb shape "octagon"); reflexivity.
Qed.

Lemma cell_layer_opening_cell shape d layer offset :
  cell_layer (opening_cell shape d layer offset) = Some layer.
Proof.
  unfold opening_cell.
  destruct (String.eqb shape "square"); [ reflexivity | ].
  destruct (String.eqb shape "octagon"); reflexivity.
Qed.

(** One iteration of the array loop, once the pad generator has returned
    [pad] and [pad] has a port ["pad"]. *)
Lemma array_step_run pitch diam shape ltm lp ld offs pad k pp (i : Z) c :
  bondpad shape diam ltm lp ld offs = inr pad →
  list_find (λ p, port_name p = "pad") (ports pad) = Some (k, pp) →
  array_step pitch diam shape ltm lp ld offs i c
  = (mkComponent
       (insts c ++ [(Built pad, (0 + inject_Z i * pitch, 0 + 0))])
       (polygons c)
       (ports c ++ [mkPort ("pad_" ++ py_str (i + 1)) (inject_Z i * pitch, 0) diam 0
                      (port_layer pp) (Some "electrical")])
       (info c), inr tt).
Proof.
  intros Hpad Hport.
  unfold array_step, mbind, build_bind, bind.
  rewrite Hpad.
  cbn [call ret add_ref movex move insts polygons ports info fst snd].
  unfold port_lookup. rewrite Hport.
  cbn [ret add_port insts polygons ports info].
  rewrite <- (Nat.add_0_r (length (insts c))), alter_app_r.
  reflexivity.
Qed.

Lemma array_loop_run pitch diam shape ltm lp ld offs pad k pp (idxs : list Z) c :
  bondpad shape diam ltm lp ld offs = inr pad →
  list_find (λ p, port_name p = "pad") (ports pad) = Some (k, pp) →
  for_each idxs (array_step pitch diam shape ltm lp ld offs) c
  = (mkComponent
       (insts c ++ map (λ i, (Built pad, (0 + inject_Z i * pitch, 0 + 0))) idxs)
       (polygons c)
       (ports c ++ map (λ i : Z,
          mkPort ("pad_" ++ py_str (i + 1)) (inject_Z i * pitch, 0) diam 0
            (port_layer pp) (Some "electrical")) idxs)
       (info c), inr tt).
Proof.
  intros Hpad Hport. revert c.
  induction idxs as [ | i idxs IH ]; intros c.
  - cbn [for_each map]. rewrite !app_nil_r. destruct c; reflexivity.
  - cbn [for_each map]. unfold mbind, build_bind, bind.
    rewrite (array_step_run _ _ _ _ _ _ _ _ _ _ _ _ Hpad Hport), IH.
    cbn [insts polygons ports info]. rewrite <- !app_assoc. reflexivity.
Qed.


(** C5, for [n_pads] of at least 1.  A [shape] outside {"octagon",
    "square", "circle"} makes [bondpad] raise [ValueError] with the message
    "Unknown shape: " followed by the value, while its component is still
    empty; and for every [n_pads] of at least 1, [bondpad_array] with such a
    shape raises the same exception, its own component still empty. *)
Theorem unknown_shape_rejected shape d ltm lp ld offs (n_pads : Z) pitch :
  ¬ known_shape shape →
  (1 ≤ n_pads)%Z →
  bondpad_body shape d ltm lp ld offs empty_component
  = (empty_component, inl (ValueError ("Unknown shape: " ++ shape)))
  ∧ bondpad shape d ltm lp ld offs = inl (ValueError ("Unknown shape: " ++ shape))
  ∧ bondpad_array_body n_pads pitch d shape ltm lp ld offs empty_component
    = (empty_component, inl (ValueError ("Unknown shape: " ++ shape)))
  ∧ bondpad_array n_pads pitch d shape ltm lp ld offs
    = bondpad shape d ltm lp ld offs.
Proof.
  intros Hshape Hn.
  pose proof (bondpad_unknown shape d ltm lp ld offs Hshape) as Hpad.
  assert (Hbody : bondpad_array_body n_pads pitch d shape ltm lp ld offs empty_component
                  = (empty_component, inl (ValueError ("Unknown shape: " ++ shape)))).
  { unfold bondpad_array_body, py_range.
    rewrite seqZ_cons by lia.
    cbn [for_each]. unfold mbind, build_bind, bind, array_step.
    rewrite Hpad. reflexivity. }
  split; [ apply bondpad_body_raises; exact Hshape | ].
  split; [ exact Hpad | ].
  split; [ exact Hbody | ].
  rewrite Hpad. unfold bondpad_array, cell. rewrite Hbody. reflexivity.
Qed.

(** C6.  For every [k ≥ 0] and recognised shape, [bondpad_array(n_pads=k)]
    returns a component with exactly [k] ports; for [i] from 1 to [k], in
    this order, the port is named "pad_" followed by [i], centred at
    [((i-1) * pad_pitch, 0)], of width [pad_diameter], on the layer of the
    port ["pad"] of the pad the generator returns (its top-metal layer). *)
Theorem bondpad_array_ports (k : Z) pitch diam shape ltm lp ld offs :
  (0 ≤ k)%Z →
  known_shape shape →
  ∃ c pad pp,
    bondpad_array k pitch diam shape ltm lp ld offs = inr c
    ∧ bondpad shape diam ltm lp ld offs = inr pad
    ∧ list_find (λ p, port_name p = "pad") (ports pad) = Some (0%nat, pp)
    ∧ port_layer pp = ltm
    ∧ Z.of_nat (length (ports c)) = k
    ∧ ports c
      = map (λ i : Z,
          mkPort ("pad_" ++ py_str i) (inject_Z (i - 1) * pitch, 0) diam 0
            (port_layer pp) (Some "electrical"))
          (seqZ 1 k).
Proof.
  intros Hk Hshape.
  pose proof (bondpad_known shape diam ltm lp ld offs Hshape) as Hpad.
  set (pad := mkComponent _ _ _ _) in Hpad.
  assert (Hport : list_find (λ p, port_name p = "pad") (ports pad)
                  = Some (0%nat, pad_port diam ltm)) by reflexivity.
  exists (mkComponent
    (map (λ i, (Built pad, (0 + inject_Z i * pitch, 0 + 0))) (py_range 0 k))
    []
    (map (λ i : Z,
       mkPort ("pad_" ++ py_str (i + 1)) (inject_Z i * pitch, 0) diam 0
         (port_layer (pad_port diam ltm)) (Some "electrical")) (py_range 0 k))
    (<["pad_diameter" := InfoFloat diam]>
       (<["pad_pitch" := InfoFloat pitch]> (<["n_pads" := InfoInt k]> ∅)))),
    pad, (pad_port diam ltm).
  split.
  { unfold bondpad_array, cell, bondpad_array_body, mbind, build_bind, bind.
    rewrite (array_loop_run _ _ _ _ _ _ _ _ _ _ _ _ Hpad Hport). reflexivity. }
  split; [ exact Hpad | ].
  split; [ exact Hport | ].
  split; [ reflexivity | ].
  cbn [ports]. unfold py_range. rewrite Z.sub_0_r.
  split.
  - rewrite length_map, length_seqZ. lia.
  - replace (seqZ 1 k) with (Z.add 1 <$> seqZ 0 k)
      by (rewrite fmap_add_seqZ; reflexivity).
    rewrite <- list_fmap_compose. apply map_ext. intros i. cbn.
    replace (1 + i - 1)%Z with i by lia.
    replace (1 + i)%Z with (i + 1)%Z by lia.
    reflexivity.
Qed.

(** C9.  For a recognised shape and every sequence [offs] of offsets,
    [bondpad] returns a component whose references are the pad on the
    top-metal layer followed by one opening per pair of
    [zip((layer_passiv, layer_dfpad), offs)]: [min(len(offs), 2)] of them,
    on the first layers of the pair, built from the first offsets in
    order.  No exception is raised when [offs] is shorter than the pair. *)
Theorem bondpad_offset_layers shape d ltm lp ld (offs : list Q) :
  known_shape shape →
  ∃ c,
    bondpad shape d ltm lp ld (Some offs) = inr c
    ∧ length (insts c) = (1 + Nat.min (length offs) 2)%nat
    ∧ insts c
      = (pad_cell shape d ltm, (0, 0))
          :: map (λ lo, (opening_cell shape d lo.1 lo.2, (0, 0)))
               (zip (take (length offs) [lp; ld]) (take 2 offs))
    ∧ map (λ r, cell_layer r.1) (insts c)
      = Some ltm :: map Some (take (length offs) [lp; ld])
    ∧ polygons c = [].
Proof.
  intros Hshape.
  eexists. split; [ apply (bondpad_known _ _ _ _ _ _ Hshape) | ].
  cbn [insts polygons].
  assert (Hzip : zip [lp; ld] (offsets_or_empty (Some offs))
                 = zip (take (length offs) [lp; ld]) (take 2 offs)).
  { destruct offs as [ | a [ | b offs ] ]; cbn; rewrite ?take_nil; reflexivity. }
  rewrite Hzip.
  split; [ destruct offs as [ | a [ | b offs ] ]; cbn; rewrite ?take_nil, ?Nat.min_0_r;
           reflexivity | ].
  split; [ reflexivity | ].
  split; [ | reflexivity ].
  cbn [map fst]. rewrite cell_layer_pad_cell. f_equal.
  destruct offs as [ | a [ | b offs ] ]; cbn; rewrite ?take_nil; cbn;
    rewrite ?cell_layer_opening_cell; reflexivity.
Qed.

(** C10.  For a recognised shape, [bondpad(bbox_offsets=None)] raises
    nothing and returns a component with one reference, the pad on the
    top-metal layer, no opening, and the single port ["pad"]; it is the
    component returned for the empty sequence of offsets. *)
Theorem bondpad_no_offsets shape d ltm lp ld :
  known_shape shape →
  ∃ c,
    bondpad shape d ltm lp ld None = inr c
    ∧ insts c = [(pad_cell shape d ltm, (0, 0))]
    ∧ cell_layer (pad_cell shape d ltm) = Some ltm
    ∧ polygons c = []
    ∧ ports c = [mkPort "pad" (0, 0) d 0 ltm (Some "electrical")]
    ∧ bondpad shape d ltm lp ld (Some []) = inr c.
Proof.
  intros Hshape.
  eexists. split; [ apply (bondpad_known _ _ _ _ _ _ Hshape) | ].
  cbn [insts polygons ports offsets_or_empty zip zip_with map].
  split; [ reflexivity | ].
  split; [ apply cell_layer_pad_cell | ].
  split; [ reflexivity | ].
  split; [ reflexivity | ].
  rewrite (bondpad_known shape d ltm lp ld (Some []) Hshape). reflexivity.
Qed.

End BondpadFacts.

(** ** Runs on concrete inputs *)

Lemma triangle_unknown : ¬ Bondpads.known_shape "triangle".
Proof. intros [Hs | [Hs | Hs]]; discriminate Hs. Qed.

Lemma octagon_known : Bondpads.known_shape "octagon".
Proof. left. reflexivity. Qed.

Lemma unknown_shape_rejected_witness :
  ¬ Bondpads.known_shape "triangle"
  ∧ (1 ≤ 4)%Z
  ∧ @Bondpads.bondpad_body rational_lib "triangle" 80 Bondpads.default_top_metal
      Bondpads.default_passiv Bondpads.default_dfpad Bondpads.default_bbox_offsets
      empty_component
    = (empty_component, inl (ValueError "Unknown shape: triangle"))
  ∧ @Bondpads.bondpad rational_lib "triangle" 80 Bondpads.default_top_metal
      Bondpads.default_passiv Bondpads.default_dfpad Bondpads.default_bbox_offsets
    = inl (ValueError "Unknown shape: triangle")
  ∧ @Bondpads.bondpad_array_body rational_lib 4 100 80 "triangle"
      Bondpads.default_top_metal Bondpads.default_passiv Bondpads.default_dfpad
      Bondpads.default_bbox_offsets empty_component
    = (empty_component, inl (ValueError "Unknown shape: triangle"))
  ∧ @Bondpads.bondpad_array rational_lib 4 100 80 "triangle"
      Bondpads.default_top_metal Bondpads.default_passiv Bondpads.default_dfpad
      Bondpads.default_bbox_offsets
    = @Bondpads.bondpad rational_lib "triangle" 80 Bondpads.default_top_metal
        Bondpads.default_passiv Bondpads.default_dfpad Bondpads.default_bbox_offsets.
Proof.
  assert (Hn : (1 ≤ 4)%Z) by lia.
  split; [ exact triangle_unknown | ].
  split; [ exact Hn | ].
  exact (@unknown_shape_rejected rational_lib "triangle" 80 Bondpads.default_top_metal
           Bondpads.default_passiv Bondpads.default_dfpad Bondpads.default_bbox_offsets
           4 100 triangle_unknown Hn).
Defined.

(** C5, as stated, fails at [n_pads = 0]: [bondpad(shape="triangle")]
    raises, [bondpad_array(n_pads=0, shape="triangle")] returns a component
    (with no reference and no port). *)
Lemma bondpad_array_no_pads_accepts_unknown_shape :
  ¬ Bondpads.known_shape "triangle"
  ∧ @Bondpads.bondpad rational_lib "triangle" 80 Bondpads.default_top_metal
      Bondpads.default_passiv Bondpads.default_dfpad Bondpads.default_bbox_offsets
    = inl (ValueError "Unknown shape: triangle")
  ∧ @Bondpads.bondpad_array rational_lib 0 100 80 "triangle"
      Bondpads.default_top_metal Bondpads.default_passiv Bondpads.default_dfpad
      Bondpads.default_bbox_offsets
    = inr (mkComponent [] [] []
             (<["pad_diameter" := InfoFloat 80]>
                (<["pad_pitch" := InfoFloat 100]> (<["n_pads" := InfoInt 0]> ∅))))
  ∧ @Bondpads.bondpad_array rational_lib 0 100 80 "triangle"
      Bondpads.default_top_metal Bondpads.default_passiv Bondpads.default_dfpad
      Bondpads.default_bbox_offsets
    ≠ @Bondpads.bondpad rational_lib "triangle" 80 Bondpads.default_top_metal
        Bondpads.default_passiv Bondpads.default_dfpad Bondpads.default_bbox_offsets.
Proof.
  split; [ exact triangle_unknown | ].
  split; [ reflexivity | ].
  split; [ reflexivity | ].
  discriminate.
Qed.

Lemma bondpad_array_ports_witness :
  (0 ≤ 3)%Z
  ∧ Bondpads.known_shape "octagon"
  ∧ ∃ c pad pp,
      @Bondpads.bondpad_array rational_lib 3 100 80 "octagon" Bondpads.default_top_metal
        Bondpads.default_passiv Bondpads.default_dfpad Bondpads.default_bbox_offsets
      = inr c
      ∧ @Bondpads.bondpad rational_lib "octagon" 80 Bondpads.default_top_metal
          Bondpads.default_passiv Bondpads.default_dfpad Bondpads.default_bbox_offsets
        = inr pad
      ∧ list_find (λ p, port_name p = "pad") (ports pad) = Some (0%nat, pp)
      ∧ port_layer pp = Bondpads.default_top_metal
      ∧ Z.of_nat (length (ports c)) = 3
      ∧ ports c
        = map (λ i : Z,
            mkPort ("pad_" ++ py_str i) (inject_Z (i - 1) * 100, 0)%Q 80 0
              (port_layer pp) (Some "electrical"))
            (seqZ 1 3).
Proof.
  assert (Hk : (0 ≤ 3)%Z) by lia.
  split; [ exact Hk | ].
  split; [ exact octagon_known | ].
  exact (@bondpad_array_ports rational_lib 3 100 80 "octagon" Bondpads.default_top_metal
           Bondpads.default_passiv Bondpads.default_dfpad Bondpads.default_bbox_offsets
           Hk octagon_known).
Defined.

Example bondpad_array_three_pads :
  match @Bondpads.bondpad_array rational_lib 3 100 80 "octagon"
          Bondpads.default_top_metal Bondpads.default_passiv Bondpads.default_dfpad
          Bondpads.default_bbox_offsets with
  | inr c => map (λ p, (port_name p, Qred (port_center p).1, Qred (port_center p).2))
               (ports c)
  | inl _ => []
  end
  = [ ("pad_1", 0, 0); ("pad_2", 100, 0); ("pad_3", 200, 0) ]%Q.
Proof. vm_compute. reflexivity. Qed.

Lemma bondpad_offset_layers_witness :
  Bondpads.known_shape "octagon"
  ∧ ∃ c,
      @Bondpads.bondpad rational_lib "octagon" 80 Bondpads.default_top_metal
        Bondpads.default_passiv Bondpads.default_dfpad (Some [-2.1; 0]%Q)
      = inr c
      ∧ length (insts c) = (1 + Nat.min (length [-2.1; 0]%Q) 2)%nat
      ∧ insts c
        = (@pad_cell rational_lib "octagon" 80 Bondpads.default_top_metal, (0, 0)%Q)
            :: map (λ lo, (@opening_cell rational_lib "octagon" 80 lo.1 lo.2, (0, 0)%Q))
                 (zip (take (length [-2.1; 0]%Q)
                         [Bondpads.default_passiv; Bondpads.default_dfpad])
                    (take 2 [-2.1; 0]%Q))
      ∧ map (λ r, cell_layer r.1) (insts c)
        = Some Bondpads.default_top_metal
            :: map Some (take (length [-2.1; 0]%Q)
                           [Bondpads.default_passiv; Bondpads.default_dfpad])
      ∧ polygons c = [].
Proof.
  split; [ exact octagon_known | ].
  exact (@bondpad_offset_layers rational_lib "octagon" 80 Bondpads.default_top_metal
           Bondpads.default_passiv Bondpads.default_dfpad [-2.1; 0]%Q octagon_known).
Defined.

Example bondpad_reference_counts :
  map (λ offs,
         match @Bondpads.bondpad rational_lib "square" 80 Bondpads.default_top_metal
                 Bondpads.default_passiv Bondpads.default_dfpad offs with
         | inr c => Some (map (λ r, cell_layer r.1) (insts c))
         | inl _ => None
         end)
      [ Some [-2.1; 0]%Q; Some [-2.1]%Q; Some [-2.1; 0; 1]%Q; Some []; None ]
  = [ Some [ Some Bondpads.default_top_metal; Some Bondpads.default_passiv;
             Some Bondpads.default_dfpad ];
      Some [ Some Bondpads.default_top_metal; Some Bondpads.default_passiv ];
      Some [ Some Bondpads.default_top_metal; Some Bondpads.default_passiv;
             Some Bondpads.default_dfpad ];
      Some [ Some Bondpads.default_top_metal ];
      Some [ Some Bondpads.default_top_metal ] ].
Proof. reflexivity. Qed.

Lemma bondpad_no_offsets_witness :
  Bondpads.known_shape "octagon"
  ∧ ∃ c,
      @Bondpads.bondpad rational_lib "octagon" 80 Bondpads.default_top_metal
        Bondpads.default_passiv Bondpads.default_dfpad None
      = inr c
      ∧ insts c = [(@pad_cell rational_lib "octagon" 80 Bondpads.default_top_metal,
                    (0, 0)%Q)]
      ∧ cell_layer (@pad_cell rational_lib "octagon" 80 Bondpads.default_top_metal)
        = Some Bondpads.default_top_metal
      ∧ polygons c = []
      ∧ ports c = [mkPort "pad" (0, 0)%Q 80 0 Bondpads.default_top_metal
                     (Some "electrical")]
      ∧ @Bondpads.bondpad rational_lib "octagon" 80 Bondpads.default_top_metal
          Bondpads.default_passiv Bondpads.default_dfpad (Some [])
        = inr c.
Proof.
  split; [ exact octagon_known | ].
  exact (@bondpad_no_offsets rational_lib "octagon" 80 Bondpads.default_top_metal
           Bondpads.default_passiv Bondpads.default_dfpad octagon_known).
Defined.

(** * Further properties *)

(** ** Quantisation and [inductor_min_diameter] *)

Section QuantizeFacts.
Local Open Scope Q_scope.

Ltac compare_facts :=
  repeat match goal with
  | Hc : (_ ?= _) = Eq |- _ => apply Qeq_alt in Hc
  | Hc : (_ ?= _) = Lt |- _ => apply Qlt_alt in Hc
  | Hc : (_ ?= _) = Gt |- _ => apply Qgt_alt in Hc
  end.

Lemma py_round_floor_bounds (x : Q) :
  (Qfloor x ≤ py_round x ≤ Qfloor x + 1)%Z.
Proof.
  unfold py_round.
  destruct (x - inject_Z (Qfloor x) ?= 1 # 2); [ destruct (Z.even (Qfloor x)) | | ]; lia.
Qed.

Lemma py_round_error (x : Q) : Qabs (inject_Z (py_round x) - x) <= 1 # 2.
Proof.
  pose proof (Qfloor_le x) as Hlo.
  pose proof (Qlt_floor x) as Hhi.
  rewrite inject_Z_plus in Hhi. change (inject_Z 1) with 1 in Hhi.
  apply Qabs_Qle_condition.
  unfold py_round.
  destruct (x - inject_Z (Qfloor x) ?= 1 # 2) eqn:Hc.
  - apply Qeq_alt in Hc.
    destruct (Z.even (Qfloor x)); rewrite ?inject_Z_plus;
      change (inject_Z 1) with 1; split; lra.
  - apply Qlt_alt in Hc. split; lra.
  - apply Qgt_alt in Hc. rewrite inject_Z_plus. change (inject_Z 1) with 1.
    split; lra.
Qed.

Lemma py_round_mono (x y : Q) : x <= y → (py_round x ≤ py_round y)%Z.
Proof.
  intros Hxy.
  pose proof (Qfloor_resp_le _ _ Hxy) as Hf.
  pose proof (py_round_floor_bounds x) as Hx.
  pose proof (py_round_floor_bounds y) as Hy.
  destruct (Z.eq_dec (Qfloor x) (Qfloor y)) as [Heq | Hne]; [ | lia ].
  clear Hx Hy Hf. unfold py_round. rewrite <- Heq.
  destruct (x - inject_Z (Qfloor x) ?= 1 # 2) eqn:Hcx;
    destruct (y - inject_Z (Qfloor x) ?= 1 # 2) eqn:Hcy;
    destruct (Z.even (Qfloor x));
    try lia;
    exfalso; compare_facts; lra.
Qed.


Lemma quantize_as_round (g v : Q) :
  ¬ g == 0 → quantize g v - v == (inject_Z (py_round (v / g)) - v / g) * g.
Proof. intros Hg. unfold quantize. field. exact Hg. Qed.

Lemma quantize2x_as_round (g v : Q) :
  ¬ g == 0 →
  quantize2x g v - v == (inject_Z (py_round (v / (2 * g))) - v / (2 * g)) * (2 * g).
Proof. intros Hg. unfold quantize2x. rewrite inject_Z_mult. field. exact Hg. Qed.

(** X1.  On a grid [g > 0], [round(v / g) * g] is within half a grid step
    of [v], and [round(v / (2g)) * 2 * g] within a whole step. *)
Theorem quantize_error_bound (g v : Q) :
  0 < g →
  Qabs (quantize g v - v) <= g / 2 ∧ Qabs (quantize2x g v - v) <= g.
Proof.
  intros Hg.
  assert (Hg0 : ¬ g == 0) by (apply Qnot_eq_sym, Qlt_not_eq, Hg).
  split.
  - rewrite (quantize_as_round g v Hg0), Qabs_Qmult, (Qabs_pos g) by lra.
    assert (Hhalf : g / 2 == (1 # 2) * g) by field. rewrite Hhalf.
    apply Qmult_le_compat_r; [ apply py_round_error | lra ].
  - rewrite (quantize2x_as_round g v Hg0), Qabs_Qmult, (Qabs_pos (2 * g)) by lra.
    apply Qle_trans with ((1 # 2) * (2 * g)); [ | lra ].
    apply Qmult_le_compat_r; [ apply py_round_error | lra ].
Qed.

Lemma quantize_error_bound_witness :
  0 < 0.01
  ∧ Qabs (quantize 0.01 2.104 - 2.104) <= 0.01 / 2
  ∧ Qabs (quantize2x 0.01 25.35 - 25.35) <= 0.01.
Proof.
  assert (Hg : 0 < 0.01) by reflexivity.
  split; [ exact Hg | ].
  split.
  - exact (proj1 (quantize_error_bound 0.01 2.104 Hg)).
  - exact (proj2 (quantize_error_bound 0.01 25.35 Hg)).
Defined.

Lemma div_le_div (g a b : Q) : 0 < g → a <= b → a / g <= b / g.
Proof.
  intros Hg Hab. unfold Qdiv.
  apply Qmult_le_compat_r; [ exact Hab | ].
  apply Qlt_le_weak, Qinv_lt_0_compat, Hg.
Qed.

(** X2.  Both quantisations preserve order on a grid [g > 0]: a larger
    request never snaps to a smaller value. *)
Theorem quantize_monotone (g v1 v2 : Q) :
  0 < g → v1 <= v2 →
  quantize g v1 <= quantize g v2 ∧ quantize2x g v1 <= quantize2x g v2.
Proof.
  intros Hg Hv. split.
  - unfold quantize.
    apply Qmult_le_compat_r; [ | lra ].
    rewrite <- Zle_Qle. apply py_round_mono, div_le_div; [ exact Hg | exact Hv ].
  - unfold quantize2x.
    apply Qmult_le_compat_r; [ | lra ].
    rewrite <- Zle_Qle. apply Z.mul_le_mono_nonneg_r; [ lia | ].
    apply py_round_mono, div_le_div; [ lra | exact Hv ].
Qed.

Lemma quantize_monotone_witness :
  0 < 0.01 ∧ 2.104 <= 2.106
  ∧ quantize 0.01 2.104 <= quantize 0.01 2.106
  ∧ quantize2x 0.01 2.104 <= quantize2x 0.01 2.106.
Proof.
  assert (Hg : 0 < 0.01) by reflexivity.
  assert (Hv : 2.104 <= 2.106) by discriminate.
  split; [ exact Hg | ].
  split; [ exact Hv | ].
  exact (quantize_monotone 0.01 2.104 2.106 Hg Hv).
Defined.





End QuantizeFacts.

(** ** Geometry of [inductor2] *)

Section InductorGeometry.
Import Inductors.
Context `{FloatLib}.
Local Open Scope Q_scope.

Lemma inductor2_returns width space diameter resistance inductance turns block_qrc :
  let w := quantize2x grid width in
  let s := quantize grid space in
  let d := quantize2x grid diameter in
  let length := 2 * (d / 2 + s) + s in
  inductor2 width space diameter resistance inductance turns block_qrc
  = inr (mkComponent
    [ (Extrude (path_points space s d) TM2 w, (0, 0));
      (Rectangle (s, length) TM2 None, (0 + (- s - s / 2), 0 + 0));
      (Rectangle (s, length) TM2 None, (0 + (s - s / 2), 0 + 0));
      (Rectangle (s, s) TopMetal2Pin None, (0 + s / 2, 0 + 0));
      (Rectangle (s, s) TopMetal2Pin None, (0 + (- s - s / 2), 0 + 0)) ]
    (map (mkPolygon (outer_polygon_pts s d)) (marker_layers block_qrc))
    [ mkPort "P1" (- s, s) s 270 TM2 None; mkPort "P2" (s, s) s 270 TM2 None ]
    (<["diameter" := InfoFloat diameter]>
      (<["space" := InfoFloat space]>
        (<["width" := InfoFloat width]>
          (<["turns" := InfoInt turns]>
            (<["model" := InfoStr "inductor2"]>
              (<["inductance" := InfoFloat inductance]>
                (<["resistance" := InfoFloat resistance]> ∅)))))))).
Proof.
  cbv zeta. unfold inductor2, cell.
  pose proof (inductor2_body_run width space diameter resistance inductance turns
                block_qrc) as Hrun.
  cbv zeta in Hrun. rewrite Hrun. reflexivity.
Qed.

(** X5.  [block_qrc] decides one polygon only.  For all other arguments
    alike, the component built with [block_qrc=False] has 11 polygons, none
    on the NoRCX layer (148, 0), all with the same 8 vertices; the one built
    with [block_qrc=True] has the same references, ports and [info], and the
    same polygons with one more on NoRCX, same vertices, in eleventh place. *)
Theorem inductor2_block_qrc_toggle width space diameter resistance inductance turns :
  ∃ ct cf outer,
    inductor2 width space diameter resistance inductance turns true = inr ct
    ∧ inductor2 width space diameter resistance inductance turns false = inr cf
    ∧ insts ct = insts cf ∧ ports ct = ports cf ∧ info ct = info cf
    ∧ polygons ct
      = take 10 (polygons cf) ++ [mkPolygon outer NoRCX] ++ drop 10 (polygons cf)
    ∧ length (polygons cf) = 11%nat
    ∧ Forall (λ p, poly_points p = outer ∧ poly_layer p ≠ NoRCX) (polygons cf)
    ∧ length outer = 8%nat.
Proof.
  eexists _, _, _.
  split; [ apply inductor2_returns | ].
  split; [ apply inductor2_returns | ].
  cbn [insts ports info polygons].
  do 3 (split; [ reflexivity | ]).
  split; [ reflexivity | ].
  split; [ reflexivity | ].
  split; [ | apply outer_polygon_pts_length ].
  cbn [marker_layers map app NoFill_layers].
  repeat (constructor; [ split; [ reflexivity | discriminate ] | ]).
  constructor.
Qed.


(** X6.  For all arguments, with [s] the quantised spacing: the two stubs
    are equal rectangles of width [s] resting on y = 0; port "P1" is on the
    centre line of the first stub at x = -s and "P2" on that of the second
    at x = s, both at y = s with width [s]; the stubs are mirror images
    about x = 0; and the pin squares, of side [s], sit at the foot of the
    stubs: the first pin under the second stub, the second under the
    first. *)
Theorem inductor2_stubs_ports_pins width space diameter resistance inductance turns
    block_qrc :
  ∃ c coil stub pin o1 o2 o3 o4 p1 p2 len,
    let s := quantize grid space in
    inductor2 width space diameter resistance inductance turns block_qrc = inr c
    ∧ insts c = [ (coil, (0, 0)); (stub, o1); (stub, o2); (pin, o3); (pin, o4) ]
    ∧ stub = Rectangle (s, len) TM2 None
    ∧ pin = Rectangle (s, s) TopMetal2Pin None
    ∧ ports c = [p1; p2]
    ∧ port_center p1 = (- s, s) ∧ port_center p2 = (s, s)
    ∧ port_width p1 = s ∧ port_width p2 = s
    ∧ o1.1 + s / 2 == (port_center p1).1
    ∧ o2.1 + s / 2 == (port_center p2).1
    ∧ o2.1 == - (o1.1 + s)
    ∧ o1.2 == 0 ∧ o2.2 == 0
    ∧ o3.1 == o2.1 ∧ o3.2 == o2.2
    ∧ o4.1 == o1.1 ∧ o4.2 == o1.2.
Proof.
  do 11 eexists. cbv zeta.
  split; [ apply inductor2_returns | ].
  cbn [insts ports port_center port_width fst snd].
  do 8 (split; [ reflexivity | ]).
  repeat apply conj; cbn [fst snd port_center]; field.
Qed.


(** X7.  When [space] is an integer multiple of the grid, the coil path
    meets the stubs: its first point is at x = s/2, the left edge of the
    second stub, and its last point at x = -s/2, the right edge of the
    first stub, [s] being the quantised spacing. *)
Theorem inductor2_gap_meets_stubs width space diameter resistance inductance turns
    block_qrc (n : Z) :
  space == inject_Z n * grid →
  ∃ c pts w stub o1 o2 rest p q,
    let s := quantize grid space in
    inductor2 width space diameter resistance inductance turns block_qrc = inr c
    ∧ insts c = (Extrude pts TM2 w, (0, 0)) :: (stub, o1) :: (stub, o2) :: rest
    ∧ head pts = Some p ∧ last pts = Some q
    ∧ p.1 == s / 2 ∧ q.1 == - (s / 2)
    ∧ p.1 == o2.1 ∧ q.1 == o1.1 + s.
Proof.
  intros Hspace.
  assert (Hs : quantize grid space == space).
  { rewrite (quantize_fixed grid n space) by (discriminate || exact Hspace).
    symmetry. exact Hspace. }
  eexists _, _, _, _, _, _, _, _, _. cbv zeta.
  split; [ apply inductor2_returns | ].
  cbn [insts].
  split; [ reflexivity | ].
  split; [ apply path_points_ends | ].
  split; [ apply path_points_ends | ].
  cbn [fst snd]. rewrite Hs.
  repeat split; field.
Qed.


Lemma on_grid_quantize v : on_grid (quantize grid v).
Proof. eexists. reflexivity. Qed.

Lemma on_grid_opp q : on_grid q → on_grid (- q).
Proof.
  intros [k Hk]. exists (- k)%Z. rewrite Hk, inject_Z_opp. ring.
Qed.

Lemma on_grid_stub_length space diameter :
  on_grid (2 * (quantize2x grid diameter / 2 + quantize grid space) + quantize grid space).
Proof.
  exists (2 * (py_round (diameter / (2 * grid)) + py_round (space / grid))
          + py_round (space / grid))%Z.
  unfold quantize2x, quantize.
  rewrite !inject_Z_plus, !inject_Z_mult, inject_Z_plus. field.
Qed.


(** X8.  Whatever the arguments, what [inductor2] takes from the quantised
    values is on the 0.01 grid: both coordinates of each port centre, each
    port width, and both sides of every rectangle it references (stubs and
    pins) are integer multiples of the grid. *)
Theorem inductor2_ports_and_sizes_on_grid width space diameter resistance inductance
    turns block_qrc :
  ∃ c,
    inductor2 width space diameter resistance inductance turns block_qrc = inr c
    ∧ Forall (λ p, on_grid (port_center p).1 ∧ on_grid (port_center p).2
                   ∧ on_grid (port_width p)) (ports c)
    ∧ Forall (λ r, cell_on_grid r.1) (insts c).
Proof.
  eexists. split; [ apply inductor2_returns | ].
  cbn [insts ports].
  pose proof (on_grid_quantize space) as Hs.
  pose proof (on_grid_opp _ Hs) as Hns.
  pose proof (on_grid_stub_length space diameter) as Hlen.
  split; repeat constructor; cbn [fst snd port_center port_width]; assumption.
Qed.

(** X9.  The geometry depends on [width] and [diameter] through their grid
    index only: two calls whose widths round to the same multiple of 0.02,
    and whose diameters do, with the same [space] and [block_qrc], return
    the same references, polygons and ports. *)
Theorem inductor2_same_snap_same_geometry width1 width2 space diameter1 diameter2
    resistance1 resistance2 inductance1 inductance2 turns1 turns2 block_qrc :
  py_round (width1 / (2 * grid)) = py_round (width2 / (2 * grid)) →
  py_round (diameter1 / (2 * grid)) = py_round (diameter2 / (2 * grid)) →
  ∃ c1 c2,
    inductor2 width1 space diameter1 resistance1 inductance1 turns1 block_qrc = inr c1
    ∧ inductor2 width2 space diameter2 resistance2 inductance2 turns2 block_qrc = inr c2
    ∧ insts c1 = insts c2 ∧ polygons c1 = polygons c2 ∧ ports c1 = ports c2.
Proof.
  intros Hw Hd.
  eexists _, _.
  split; [ apply inductor2_returns | ].
  split; [ apply inductor2_returns | ].
  cbn [insts polygons ports]. unfold quantize2x. rewrite Hw, Hd.
  repeat split.
Qed.

End InductorGeometry.

Section InductorWitnesses.
Import Inductors.
Local Open Scope Q_scope.

Lemma inductor2_gap_meets_stubs_witness :
  2.1 == inject_Z 210 * grid
  ∧ ∃ c pts w stub o1 o2 rest p q,
      let s := quantize grid 2.1 in
      @inductor2 rational_lib 2.0 2.1 25.35 0.5777 33.303e-12 1 true = inr c
      ∧ insts c = (Extrude pts TM2 w, (0, 0)) :: (stub, o1) :: (stub, o2) :: rest
      ∧ head pts = Some p ∧ last pts = Some q
      ∧ p.1 == s / 2 ∧ q.1 == - (s / 2)
      ∧ p.1 == o2.1 ∧ q.1 == o1.1 + s.
Proof.
  assert (Hspace : 2.1 == inject_Z 210 * grid) by reflexivity.
  split; [ exact Hspace | ].
  exact (@inductor2_gap_meets_stubs rational_lib 2.0 2.1 25.35 0.5777 33.303e-12 1 true
           210 Hspace).
Defined.

Lemma inductor2_same_snap_same_geometry_witness :
  py_round (2.0 / (2 * grid)) = py_round (2.004 / (2 * grid))
  ∧ py_round (25.35 / (2 * grid)) = py_round (25.365 / (2 * grid))
  ∧ ∃ c1 c2,
      @inductor2 rational_lib 2.0 2.1 25.35 0.5777 33.303e-12 1 true = inr c1
      ∧ @inductor2 rational_lib 2.004 2.1 25.365 1.386 221.5e-12 2 true = inr c2
      ∧ insts c1 = insts c2 ∧ polygons c1 = polygons c2 ∧ ports c1 = ports c2.
Proof.
  assert (Hw : py_round (2.0 / (2 * grid)) = py_round (2.004 / (2 * grid)))
    by reflexivity.
  assert (Hd : py_round (25.35 / (2 * grid)) = py_round (25.365 / (2 * grid)))
    by reflexivity.
  split; [ exact Hw | ].
  split; [ exact Hd | ].
  exact (@inductor2_same_snap_same_geometry rational_lib 2.0 2.004 2.1 25.35 25.365
           0.5777 1.386 33.303e-12 221.5e-12 1 2 true Hw Hd).
Defined.

End InductorWitnesses.

(** ** [bondpad] and [bondpad_array] *)

Section BondpadArrayFacts.
Import Bondpads.
Context `{FloatLib}.
Local Open Scope Q_scope.

(** The component [bondpad_array] returns for a recognised shape. *)
Lemma bondpad_array_returns (n_pads : Z) pitch diam shape ltm lp ld offs pad :
  bondpad shape diam ltm lp ld offs = inr pad →
  list_find (λ p, port_name p = "pad") (ports pad) = Some (0%nat, pad_port diam ltm) →
  bondpad_array n_pads pitch diam shape ltm lp ld offs
  = inr (mkComponent
      (map (λ i, (Built pad, (0 + inject_Z i * pitch, 0 + 0))) (seqZ 0 n_pads))
      []
      (map (λ i : Z,
         mkPort ("pad_" ++ py_str (i + 1)) (inject_Z i * pitch, 0) diam 0 ltm
           (Some "electrical")) (seqZ 0 n_pads))
      (<["pad_diameter" := InfoFloat diam]>
         (<["pad_pitch" := InfoFloat pitch]> (<["n_pads" := InfoInt n_pads]> ∅)))).
Proof.
  intros Hpad Hport.
  unfold bondpad_array, cell, bondpad_array_body, mbind, build_bind, bind, py_range.
  rewrite (array_loop_run _ _ _ _ _ _ _ _ _ _ _ _ Hpad Hport), Z.sub_0_r.
  reflexivity.
Qed.

Lemma bondpad_pad_port shape d ltm lp ld offs :
  known_shape shape →
  ∃ pad,
    bondpad shape d ltm lp ld offs = inr pad
    ∧ list_find (λ p, port_name p = "pad") (ports pad) = Some (0%nat, pad_port d ltm).
Proof.
  intros Hshape. eexists.
  split; [ apply (bondpad_known _ _ _ _ _ _ Hshape) | reflexivity ].
Qed.

(** X10.  For a recognised shape and [k >= 0], [bondpad_array(n_pads=k)]
    holds exactly [k] references and no polygon of its own; every reference
    is to the one component the pad generator returns; the reference of
    index [i] is translated to [(i * pad_pitch, 0)], which is also the
    centre of the port of that index. *)
Theorem bondpad_array_references (k : Z) pitch diam shape ltm lp ld offs :
  (0 ≤ k)%Z →
  known_shape shape →
  ∃ c pad,
    bondpad_array k pitch diam shape ltm lp ld offs = inr c
    ∧ bondpad shape diam ltm lp ld offs = inr pad
    ∧ polygons c = []
    ∧ Z.of_nat (length (insts c)) = k
    ∧ Forall2 (λ (i : Z) r,
        r.1 = Built pad ∧ r.2.1 == inject_Z i * pitch ∧ r.2.2 == 0)
        (seqZ 0 k) (insts c)
    ∧ Forall2 (λ r p, r.2.1 == (port_center p).1 ∧ r.2.2 == (port_center p).2)
        (insts c) (ports c).
Proof.
  intros Hk Hshape.
  destruct (bondpad_pad_port shape diam ltm lp ld offs Hshape) as (pad & Hpad & Hport).
  eexists _, pad.
  split; [ apply (bondpad_array_returns _ _ _ _ _ _ _ _ _ Hpad Hport) | ].
  cbn [insts polygons ports].
  split; [ exact Hpad | ].
  split; [ reflexivity | ].
  split; [ rewrite length_map, length_seqZ; lia | ].
  split.
  - apply Forall2_fmap_r, Forall_Forall2_diag, Forall_forall.
    intros i _. split; [ reflexivity | split; cbn [fst snd]; ring ].
  - apply Forall2_fmap, Forall_Forall2_diag, Forall_forall.
    intros i _. split; cbn [fst snd port_center]; ring.
Qed.

(** X11.  For a recognised shape, the ports of [bondpad_array] have
    pairwise distinct names, whatever [n_pads]. *)
Theorem bondpad_array_port_names_distinct (n_pads : Z) pitch diam shape ltm lp ld offs :
  known_shape shape →
  ∃ c,
    bondpad_array n_pads pitch diam shape ltm lp ld offs = inr c
    ∧ NoDup (port_name <$> ports c).
Proof.
  intros Hshape.
  destruct (bondpad_pad_port shape diam ltm lp ld offs Hshape) as (pad & Hpad & Hport).
  eexists.
  split; [ apply (bondpad_array_returns _ _ _ _ _ _ _ _ _ Hpad Hport) | ].
  cbn [ports]. rewrite <- list_fmap_compose.
  apply NoDup_fmap_2_strong; [ | apply NoDup_seqZ ].
  intros i j _ _ Hij. cbn in Hij.
  apply (inj (String.app "pad_")) in Hij.
  apply (inj pretty) in Hij. lia.
Qed.

(** X12.  With [n_pads <= 0] the loop of [bondpad_array] does not run: the
    pad generator is not called, so any [shape], recognised or not, gives a
    component without references, polygons or ports, whose [info] records
    [n_pads] as it was given. *)
Theorem bondpad_array_no_pads (n_pads : Z) pitch diam shape ltm lp ld offs :
  (n_pads ≤ 0)%Z →
  ∃ c,
    bondpad_array n_pads pitch diam shape ltm lp ld offs = inr c
    ∧ insts c = [] ∧ polygons c = [] ∧ ports c = []
    ∧ info c !! "n_pads" = Some (InfoInt n_pads).
Proof.
  intros Hn. eexists. split.
  - unfold bondpad_array, cell, bondpad_array_body, py_range.
    rewrite seqZ_nil by lia. reflexivity.
  - cbn [insts polygons ports info]. do 3 (split; [ reflexivity | ]).
    rewrite (lookup_insert_ne _ "pad_diameter" "n_pads") by done.
    rewrite (lookup_insert_ne _ "pad_pitch" "n_pads") by done.
    apply lookup_insert_eq.
Qed.

(** X13.  Offsets beyond the second are ignored: [bondpad], and with it
    [bondpad_array], returns (or raises) the same for [a, b, ...] as for
    [a, b], whatever the shape. *)
Theorem bondpad_extra_offsets_ignored shape d ltm lp ld (a b : Q) (more : list Q)
    (n_pads : Z) pitch :
  bondpad shape d ltm lp ld (Some (a :: b :: more))
  = bondpad shape d ltm lp ld (Some [a; b])
  ∧ bondpad_array n_pads pitch d shape ltm lp ld (Some (a :: b :: more))
    = bondpad_array n_pads pitch d shape ltm lp ld (Some [a; b]).
Proof.
  assert (Hpad : bondpad shape d ltm lp ld (Some (a :: b :: more))
                 = bondpad shape d ltm lp ld (Some [a; b])) by reflexivity.
  split; [ exact Hpad | ].
  unfold bondpad_array, bondpad_array_body, array_step. rewrite Hpad. reflexivity.
Qed.


(** X15.  For a recognised shape, the pad and all its openings are
    referenced at the origin, so they are concentric; and neither the port
    nor the [info] of the component depends on the offsets or on the
    passivation and dfpad layers. *)
Theorem bondpad_concentric shape d ltm lp1 ld1 offs1 lp2 ld2 offs2 :
  known_shape shape →
  ∃ c1 c2,
    bondpad shape d ltm lp1 ld1 offs1 = inr c1
    ∧ bondpad shape d ltm lp2 ld2 offs2 = inr c2
    ∧ Forall (λ r, r.2 = (0, 0)) (insts c1)
    ∧ ports c1 = ports c2
    ∧ info c1 = info c2
    ∧ head (insts c1) = head (insts c2).
Proof.
  intros Hshape. eexists _, _.
  split; [ apply (bondpad_known _ _ _ _ _ _ Hshape) | ].
  split; [ apply (bondpad_known _ _ _ _ _ _ Hshape) | ].
  cbn [insts ports info head].
  split; [ | repeat split ].
  constructor; [ reflexivity | ].
  apply Forall_fmap, Forall_forall. intros lo _. reflexivity.
Qed.

End BondpadArrayFacts.

Section InductorInfo.
Import Inductors.
Context `{FloatLib}.

(** X16.  The [info] of an [inductor2] component has exactly the seven keys
    resistance, inductance, model, turns, width, space and diameter; the
    model is "inductor2", and width, space and diameter are recorded as
    they were passed, not as quantised for the geometry. *)
Theorem inductor2_info width space diameter resistance inductance turns block_qrc :
  ∃ c,
    inductor2 width space diameter resistance inductance turns block_qrc = inr c
    ∧ dom (info c)
      = list_to_set [ "resistance"; "inductance"; "model"; "turns"; "width"; "space";
                      "diameter" ]
    ∧ info c !! "resistance" = Some (InfoFloat resistance)
    ∧ info c !! "inductance" = Some (InfoFloat inductance)
    ∧ info c !! "model" = Some (InfoStr "inductor2")
    ∧ info c !! "turns" = Some (InfoInt turns)
    ∧ info c !! "width" = Some (InfoFloat width)
    ∧ info c !! "space" = Some (InfoFloat space)
    ∧ info c !! "diameter" = Some (InfoFloat diameter).
Proof.
  eexists. split; [ apply inductor2_returns | ].
  cbn [info]. split.
  - do 7 rewrite dom_insert_L. rewrite dom_empty_L. cbn [list_to_set foldr].
    set_solver.
  - repeat split;
      repeat (first [ apply lookup_insert_eq | rewrite lookup_insert_ne by done ]).
Qed.

End InductorInfo.

Section BondpadWitnesses.
Import Bondpads.
Local Open Scope Q_scope.

Lemma bondpad_array_references_witness :
  (0 ≤ 3)%Z
  ∧ known_shape "octagon"
  ∧ ∃ c pad,
      @bondpad_array rational_lib 3 100 80 "octagon" default_top_metal default_passiv
        default_dfpad default_bbox_offsets = inr c
      ∧ @bondpad rational_lib "octagon" 80 default_top_metal default_passiv
          default_dfpad default_bbox_offsets = inr pad
      ∧ polygons c = []
      ∧ Z.of_nat (length (insts c)) = 3%Z
      ∧ Forall2 (λ (i : Z) r,
          r.1 = Built pad ∧ r.2.1 == inject_Z i * 100 ∧ r.2.2 == 0)
          (seqZ 0 3) (insts c)
      ∧ Forall2 (λ r p, r.2.1 == (port_center p).1 ∧ r.2.2 == (port_center p).2)
          (insts c) (ports c).
Proof.
  assert (Hk : (0 ≤ 3)%Z) by lia.
  split; [ exact Hk | ].
  split; [ exact octagon_known | ].
  exact (@bondpad_array_references rational_lib 3 100 80 "octagon" default_top_metal
           default_passiv default_dfpad default_bbox_offsets Hk octagon_known).
Defined.

Lemma bondpad_array_port_names_distinct_witness :
  known_shape "octagon"
  ∧ ∃ c,
      @bondpad_array rational_lib 4 100 80 "octagon" default_top_metal default_passiv
        default_dfpad default_bbox_offsets = inr c
      ∧ NoDup (port_name <$> ports c).
Proof.
  split; [ exact octagon_known | ].
  exact (@bondpad_array_port_names_distinct rational_lib 4 100 80 "octagon"
           default_top_metal default_passiv default_dfpad default_bbox_offsets
           octagon_known).
Defined.

Lemma bondpad_array_no_pads_witness :
  (-2 ≤ 0)%Z
  ∧ ∃ c,
      @bondpad_array rational_lib (-2) 100 80 "triangle" default_top_metal
        default_passiv default_dfpad default_bbox_offsets = inr c
      ∧ insts c = [] ∧ polygons c = [] ∧ ports c = []
      ∧ info c !! "n_pads" = Some (InfoInt (-2)).
Proof.
  assert (Hn : (-2 ≤ 0)%Z) by lia.
  split; [ exact Hn | ].
  exact (@bondpad_array_no_pads rational_lib (-2) 100 80 "triangle" default_top_metal
           default_passiv default_dfpad default_bbox_offsets Hn).
Defined.

Lemma bondpad_concentric_witness :
  known_shape "octagon"
  ∧ ∃ c1 c2,
      @bondpad rational_lib "octagon" 80 default_top_metal default_passiv default_dfpad
        default_bbox_offsets = inr c1
      ∧ @bondpad rational_lib "octagon" 80 default_top_metal default_dfpad
          default_passiv None = inr c2
      ∧ Forall (λ r, r.2 = (0, 0)) (insts c1)
      ∧ ports c1 = ports c2
      ∧ info c1 = info c2
      ∧ head (insts c1) = head (insts c2).
Proof.
  split; [ exact octagon_known | ].
  exact (@bondpad_concentric rational_lib "octagon" 80 default_top_metal default_passiv
           default_dfpad default_bbox_offsets default_dfpad default_passiv None
           octagon_known).
Defined.

End BondpadWitnesses.
